(** * Shallow embedding of [vulkano/src/image/sys.rs]

    The module wraps a Vulkan image handle: [UnsafeImage::new] derives the
    image parameters, calls the device ([vkCreateImage],
    [vkGetImageMemoryRequirements], [vkBindImageMemory]) and the caller's
    allocation closure, and [Drop] calls [vkDestroyImage] when the object
    owns its handle.

    Effects are modelled by a small monad that threads the log of the
    externally visible calls (device calls and the allocation closure) and
    ends either normally, with an early [Err] returned by [try!], or with a
    panic ([assert!], [unimplemented!]). *)

From Stdlib Require Import ZArith List Bool Lia.
Import ListNotations.
Open Scope Z_scope.

(** ** Constants of the [vk] bindings (values from the Vulkan headers) *)

Definition IMAGE_USAGE_TRANSFER_SRC_BIT : Z := 1.
Definition IMAGE_USAGE_TRANSFER_DST_BIT : Z := 2.
Definition IMAGE_USAGE_SAMPLED_BIT : Z := 4.
Definition IMAGE_USAGE_STORAGE_BIT : Z := 8.
Definition IMAGE_USAGE_COLOR_ATTACHMENT_BIT : Z := 16.
Definition IMAGE_USAGE_DEPTH_STENCIL_ATTACHMENT_BIT : Z := 32.
Definition IMAGE_USAGE_TRANSIENT_ATTACHMENT_BIT : Z := 64.
Definition IMAGE_USAGE_INPUT_ATTACHMENT_BIT : Z := 128.

Definition IMAGE_TYPE_1D : Z := 0.
Definition IMAGE_TYPE_2D : Z := 1.
Definition IMAGE_TYPE_3D : Z := 2.

Definition SHARING_MODE_EXCLUSIVE : Z := 0.
Definition SHARING_MODE_CONCURRENT : Z := 1.

Definition IMAGE_TILING_OPTIMAL : Z := 0.
Definition IMAGE_TILING_LINEAR : Z := 1.

Definition IMAGE_LAYOUT_UNDEFINED : Z := 0.
Definition IMAGE_LAYOUT_PREINITIALIZED : Z := 8.

(** A [u32] value. *)
Definition is_u32 (x : Z) : bool := (0 <=? x) && (x <? 2 ^ 32).

(** [u32::leading_zeros]: scan the 32 bits from bit 31 downwards and count
    the zero bits met before the first one. *)
Fixpoint leading_zeros_from (n : nat) (x : Z) : Z :=
  match n with
  | O => 0
  | S m => if Z.testbit x (Z.of_nat m) then 0 else 1 + leading_zeros_from m x
  end.

Definition leading_zeros (x : Z) : Z := leading_zeros_from 32 x.

(** ** Usage *)

Record Usage := mkUsage {
  transfer_source : bool;
  transfer_dest : bool;
  sampled : bool;
  storage : bool;
  color_attachment : bool;
  depth_stencil_attachment : bool;
  transient_attachment : bool;
  input_attachment : bool;
}.

Module Usage.

Definition all : Usage := mkUsage true true true true true true true true.

Definition none : Usage :=
  mkUsage false false false false false false false false.

(** [result |= BIT] when the flag is set. *)
Definition or_if (b : bool) (bit result : Z) : Z :=
  if b then Z.lor result bit else result.

Definition to_usage_bits (u : Usage) : Z :=
  let result := 0 in
  let result := or_if (transfer_source u) IMAGE_USAGE_TRANSFER_SRC_BIT result in
  let result := or_if (transfer_dest u) IMAGE_USAGE_TRANSFER_DST_BIT result in
  let result := or_if (sampled u) IMAGE_USAGE_SAMPLED_BIT result in
  let result := or_if (storage u) IMAGE_USAGE_STORAGE_BIT result in
  let result := or_if (color_attachment u) IMAGE_USAGE_COLOR_ATTACHMENT_BIT result in
  let result := or_if (depth_stencil_attachment u)
                  IMAGE_USAGE_DEPTH_STENCIL_ATTACHMENT_BIT result in
  let result := or_if (transient_attachment u)
                  IMAGE_USAGE_TRANSIENT_ATTACHMENT_BIT result in
  let result := or_if (input_attachment u) IMAGE_USAGE_INPUT_ATTACHMENT_BIT result in
  result.

(** [(val & BIT) != 0] *)
Definition bit_set (val bit : Z) : bool := negb (Z.land val bit =? 0).

Definition from_bits (val : Z) : Usage := {|
  transfer_source := bit_set val IMAGE_USAGE_TRANSFER_SRC_BIT;
  transfer_dest := bit_set val IMAGE_USAGE_TRANSFER_DST_BIT;
  sampled := bit_set val IMAGE_USAGE_SAMPLED_BIT;
  storage := bit_set val IMAGE_USAGE_STORAGE_BIT;
  color_attachment := bit_set val IMAGE_USAGE_COLOR_ATTACHMENT_BIT;
  depth_stencil_attachment := bit_set val IMAGE_USAGE_DEPTH_STENCIL_ATTACHMENT_BIT;
  transient_attachment := bit_set val IMAGE_USAGE_TRANSIENT_ATTACHMENT_BIT;
  input_attachment := bit_set val IMAGE_USAGE_INPUT_ATTACHMENT_BIT;
|}.

End Usage.

(** ** Dimensions, mipmaps, sharing, memory chunks *)

Inductive Dimensions :=
| Dim1d (width : Z)
| Dim1dArray (width array_layers : Z)
| Dim2d (width height : Z)
| Dim2dArray (width height array_layers : Z)
| Dim3d (width height depth : Z).

(** Every field of the description is a [u32]. *)
Definition dimensions_u32 (d : Dimensions) : bool :=
  match d with
  | Dim1d w => is_u32 w
  | Dim1dArray w l => is_u32 w && is_u32 l
  | Dim2d w h => is_u32 w && is_u32 h
  | Dim2dArray w h l => is_u32 w && is_u32 h && is_u32 l
  | Dim3d w h dp => is_u32 w && is_u32 h && is_u32 dp
  end.

(** [image::MipmapsCount] *)
Inductive MipmapsCount :=
| Specific (num : Z)
| Max
| One.

(** [sync::SharingMode] *)
Inductive SharingMode :=
| Exclusive (id : Z)
| Concurrent (ids : list Z).

(** [memory::ChunkProperties]: the [Regular] variant carries the memory
    object (its handle), the offset and the size; [Sparse] is the other
    variant of the enum. *)
Inductive ChunkProperties :=
| Regular (memory offset size : Z)
| Sparse.

(** [vk::Extent3D] *)
Record Extent3D := mkExtent3D {
  ext_width : Z;
  ext_height : Z;
  ext_depth : Z;
}.

(** [vk::ImageCreateInfo]; [pNext] is null, [sType] constant, and the
    queue family index pointer is represented by the list it points to
    (null is [[]]). *)
Record ImageCreateInfo := mkImageCreateInfo {
  ici_flags : Z;
  ici_imageType : Z;
  ici_format : Z;
  ici_extent : Extent3D;
  ici_mipLevels : Z;
  ici_arrayLayers : Z;
  ici_samples : Z;
  ici_tiling : Z;
  ici_usage : Z;
  ici_sharingMode : Z;
  ici_queueFamilyIndexCount : Z;
  ici_pQueueFamilyIndices : list Z;
  ici_initialLayout : Z;
}.

(** [vk::MemoryRequirements] *)
Record MemoryRequirements := mkMemoryRequirements {
  mr_size : Z;
  mr_alignment : Z;
  mr_memoryTypeBits : Z;
}.

(** [OomError]: what [try!(check_errors(..))] propagates. *)
Inductive OomError :=
| OutOfHostMemory
| OutOfDeviceMemory.

(** The device, seen through the answers of its entry points: the result
    of [vkCreateImage] for a create info (a handle or an error), the memory
    requirements of an image handle, and the result of [vkBindImageMemory]
    for (image, memory, offset). *)
Record Device := mkDevice {
  device_handle : Z;
  create_image : ImageCreateInfo -> Z + OomError;
  get_image_memory_requirements : Z -> MemoryRequirements;
  bind_image_memory : Z -> Z -> Z -> unit + OomError;
}.

(** The externally visible calls, in the order they are issued. *)
Inductive Event :=
| CreateImage (dev : Z) (infos : ImageCreateInfo)
| GetImageMemoryRequirements (dev image : Z)
| AllocateMemory (size alignment memory_type_bits : Z)
| BindImageMemory (dev image memory offset : Z)
| DestroyImage (dev image : Z).

(** [u32 as f32]: round to nearest, ties to even, on a 24-bit significand.
    Every [f32] obtained from a [u32] is an integer, given here as such. *)
Definition u32_to_f32 (x : Z) : Z :=
  if x <? 2 ^ 24 then x else
  let e := Z.log2 x - 23 in
  let q := Z.shiftr x e in
  let r := x - Z.shiftl q e in
  let half := 2 ^ (e - 1) in
  let q' := if (half <? r) || ((r =? half) && Z.odd q) then q + 1 else q in
  q' * 2 ^ e.

(** [UnsafeImage]; [dimensions] is the [[f32; 3]] of the source, each
    component the integer value of the [f32]. *)
Record UnsafeImage := mkUnsafeImage {
  image : Z;
  device : Z;
  usage : Z;
  format : Z;
  dimensions : Z * Z * Z;
  samples : Z;
  mipmaps : Z;
  needs_destruction : bool;
}.

(** ** The effect monad: call log, early return of an error, panic *)

Inductive Exec (A : Type) :=
| Done (a : A)
| Fail (e : OomError)
| Panic.
Arguments Done {A} a.
Arguments Fail {A} e.
Arguments Panic {A}.

Definition M (A : Type) := list Event -> list Event * Exec A.

Definition ret {A} (a : A) : M A := fun tr => (tr, Done a).

Definition bind {A B} (m : M A) (k : A -> M B) : M B := fun tr =>
  match m tr with
  | (tr', Done a) => k a tr'
  | (tr', Fail e) => (tr', Fail e)
  | (tr', Panic) => (tr', Panic)
  end.

Notation "x <- m ;; k" := (bind m (fun x => k))
  (at level 61, m at next level, right associativity).
Notation "m ;;; k" := (bind m (fun _ => k))
  (at level 61, right associativity).

(** Issue a call; the answer is computed by the caller of [emit]. *)
Definition emit (e : Event) : M unit := fun tr => (tr ++ [e], Done tt).

(** [assert!(b)] *)
Definition assert (b : bool) : M unit :=
  fun tr => if b then (tr, Done tt) else (tr, Panic).

(** [unimplemented!()] *)
Definition unimplemented {A} : M A := fun tr => (tr, Panic).

(** [try!(..)] *)
Definition try_ {A} (r : A + OomError) : M A :=
  fun tr => match r with inl a => (tr, Done a) | inr e => (tr, Fail e) end.

(** ** [UnsafeImage::new] *)

(** [smallest_dim], with the comparisons of the source. *)
Definition smallest_dim (d : Dimensions) : Z :=
  match d with
  | Dim1d width | Dim1dArray width _ => width
  | Dim2d width height | Dim2dArray width height _ =>
      if width <? height then width else height
  | Dim3d width height depth =>
      if width <? height then
        if depth <? width then depth else width
      else
        if depth <? height then depth else height
  end.

(** The [max_mipmaps] block. *)
Definition compute_max_mipmaps (d : Dimensions) : M Z :=
  let smallest := smallest_dim d in
  assert (1 <=? smallest) ;;;
  ret (32 - leading_zeros smallest).

(** The [match mipmaps.into()] block. *)
Definition compute_mipmaps (max_mipmaps : Z) (m : MipmapsCount) : M Z :=
  match m with
  | Specific num =>
      assert (1 <=? num) ;;;
      assert (num <=? max_mipmaps) ;;;
      ret num
  | Max => ret max_mipmaps
  | One => ret 1
  end.

(** The [(ty, extent, array_layers, dims)] match. *)
Definition image_params (d : Dimensions) : Z * Extent3D * Z * (Z * Z * Z) :=
  match d with
  | Dim1d width =>
      (IMAGE_TYPE_1D, mkExtent3D width 1 1, 1, (u32_to_f32 width, 1, 1))
  | Dim1dArray width array_layers =>
      (IMAGE_TYPE_1D, mkExtent3D width 1 1, array_layers,
       (u32_to_f32 width, 1, 1))
  | Dim2d width height =>
      (IMAGE_TYPE_2D, mkExtent3D width height 1, 1,
       (u32_to_f32 width, u32_to_f32 height, 1))
  | Dim2dArray width height array_layers =>
      (IMAGE_TYPE_2D, mkExtent3D width height 1, array_layers,
       (u32_to_f32 width, u32_to_f32 height, 1))
  | Dim3d width height depth =>
      (IMAGE_TYPE_3D, mkExtent3D width height depth, 1,
       (u32_to_f32 width, u32_to_f32 height, u32_to_f32 depth))
  end.

(** The [(sh_mode, sh_count, sh_indices)] match; [ids.len() as u32]. *)
Definition sharing_params (sh : SharingMode) : Z * Z * list Z :=
  match sh with
  | Exclusive _ => (SHARING_MODE_EXCLUSIVE, 0, [])
  | Concurrent ids =>
      (SHARING_MODE_CONCURRENT, Z.of_nat (length ids) mod 2 ^ 32, ids)
  end.

Definition new (dev : Device) (usage : Usage)
    (memory : Z -> Z -> Z -> ChunkProperties) (format : Z)
    (dimensions : Dimensions) (num_samples : Z) (mipmaps : MipmapsCount)
    (sharing : SharingMode) (linear_tiling preinitialized_layout : bool)
    : M UnsafeImage :=
  let usage := Usage.to_usage_bits usage in
  assert (1 <=? num_samples) ;;;
  max_mipmaps <- compute_max_mipmaps dimensions ;;
  mipmaps <- compute_mipmaps max_mipmaps mipmaps ;;
  let '(ty, extent, array_layers, dims) := image_params dimensions in
  let '(sh_mode, sh_count, sh_indices) := sharing_params sharing in
  let infos := {|
    ici_flags := 0;
    ici_imageType := ty;
    ici_format := format;
    ici_extent := extent;
    ici_mipLevels := mipmaps;
    ici_arrayLayers := array_layers;
    ici_samples := num_samples;
    ici_tiling := if linear_tiling then IMAGE_TILING_LINEAR
                  else IMAGE_TILING_OPTIMAL;
    ici_usage := usage;
    ici_sharingMode := sh_mode;
    ici_queueFamilyIndexCount := sh_count;
    ici_pQueueFamilyIndices := sh_indices;
    ici_initialLayout := if preinitialized_layout then IMAGE_LAYOUT_PREINITIALIZED
                         else IMAGE_LAYOUT_UNDEFINED;
  |} in
  emit (CreateImage (device_handle dev) infos) ;;;
  image <- try_ (create_image dev infos) ;;
  emit (GetImageMemoryRequirements (device_handle dev) image) ;;;
  let mem_reqs := get_image_memory_requirements dev image in
  emit (AllocateMemory (mr_size mem_reqs) (mr_alignment mem_reqs)
          (mr_memoryTypeBits mem_reqs)) ;;;
  match memory (mr_size mem_reqs) (mr_alignment mem_reqs)
               (mr_memoryTypeBits mem_reqs) with
  | Regular memory offset _ =>
      emit (BindImageMemory (device_handle dev) image memory offset) ;;;
      try_ (bind_image_memory dev image memory offset)
  | _ => unimplemented
  end ;;;
  ret {|
    device := device_handle dev;
    image := image;
    usage := usage;
    format := format;
    dimensions := dims;
    samples := num_samples;
    mipmaps := mipmaps;
    needs_destruction := true;
  |}.

(** ** [UnsafeImage::from_raw_unowned]: its body is [unimplemented!()]
    (the intended construction is commented out in the source). *)
Definition from_raw_unowned {Mem : Type} (dev : Device) (handle : Z)
    (memory : Mem) (sharing : SharingMode) (usage format : Z)
    (dimensions : Dimensions) (samples mipmaps : Z) : M UnsafeImage :=
  unimplemented.

(** ** [Drop for UnsafeImage] *)
Definition drop (self : UnsafeImage) : M unit :=
  if negb (needs_destruction self) then ret tt
  else emit (DestroyImage (device self) (image self)).

(** ** A device used in the examples: handle 7, every call succeeds unless
    told otherwise, requirements (size 4096, alignment 256, types 3). *)
Definition test_device (create_ok bind_ok : bool) : Device := {|
  device_handle := 7;
  create_image := fun _ => if create_ok then inl 42 else inr OutOfDeviceMemory;
  get_image_memory_requirements := fun _ => mkMemoryRequirements 4096 256 3;
  bind_image_memory := fun _ _ _ => if bind_ok then inl tt else inr OutOfDeviceMemory;
|}.

Definition regular_alloc : Z -> Z -> Z -> ChunkProperties :=
  fun size _ _ => Regular 99 0 size.

Definition sparse_alloc : Z -> Z -> Z -> ChunkProperties := fun _ _ _ => Sparse.

Definition outcome {A} (r : list Event * Exec A) : Exec A := snd r.
Definition calls {A} (r : list Event * Exec A) : list Event := fst r.

(** ** Reading of the spec's quantities *)

(** The smallest relevant extent, as the spec words it: the width for the
    1D variants, [min(width, height)] for the 2D ones and
    [min(width, height, depth)] for 3D. *)
Definition smallest_extent (d : Dimensions) : Z :=
  match d with
  | Dim1d w | Dim1dArray w _ => w
  | Dim2d w h | Dim2dArray w h _ => Z.min w h
  | Dim3d w h dp => Z.min w (Z.min h dp)
  end.

(** Some extent (width, height or depth) of the description is 0. *)
Definition has_zero_extent (d : Dimensions) : bool :=
  match d with
  | Dim1d w | Dim1dArray w _ => w =? 0
  | Dim2d w h | Dim2dArray w h _ => (w =? 0) || (h =? 0)
  | Dim3d w h dp => (w =? 0) || (h =? 0) || (dp =? 0)
  end.

(** A mip request that [compute_mipmaps] accepts for the maximum [max]. *)
Definition mipmaps_ok (max : Z) (m : MipmapsCount) : bool :=
  match m with
  | Specific n => (1 <=? n) && (n <=? max)
  | Max | One => true
  end.

(** ** Auxiliary lemmas *)

Lemma leading_zeros_from_log2 (n : nat) (x : Z) :
  0 < x < 2 ^ Z.of_nat n ->
  leading_zeros_from n x = Z.of_nat n - (Z.log2 x + 1).
Proof.
  revert x; induction n as [|m IH]; intros x [Hpos Hlt].
  - simpl in Hlt. lia.
  - rewrite Nat2Z.inj_succ in *. cbn [leading_zeros_from].
    assert (Hlog : Z.log2 x < Z.succ (Z.of_nat m))
      by (apply Z.log2_lt_pow2; lia).
    destruct (Z.testbit x (Z.of_nat m)) eqn:Hb.
    + assert (Z.of_nat m <= Z.log2 x).
      { destruct (Z.le_gt_cases (Z.of_nat m) (Z.log2 x)) as [H|H]; [exact H|].
        rewrite Z.bits_above_log2 in Hb by lia. discriminate. }
      lia.
    + assert (x < 2 ^ Z.of_nat m).
      { destruct (Z.lt_ge_cases x (2 ^ Z.of_nat m)) as [H|H]; [exact H|].
        apply Z.log2_le_pow2 in H; [|lia].
        assert (Z.log2 x = Z.of_nat m) as E by lia.
        rewrite <- E, Z.bit_log2 in Hb by lia. discriminate. }
      rewrite IH by (split; assumption). lia.
Qed.

Lemma bit_width_log2 (s : Z) :
  1 <= s < 2 ^ 32 -> 32 - leading_zeros s = Z.log2 s + 1.
Proof.
  intros H. unfold leading_zeros.
  rewrite leading_zeros_from_log2 by (change (Z.of_nat 32) with 32; lia).
  change (Z.of_nat 32) with 32. lia.
Qed.

Lemma smallest_dim_spec (d : Dimensions) : smallest_dim d = smallest_extent d.
Proof.
  destruct d; simpl; repeat match goal with
    | |- context [?a <? ?b] => destruct (Z.ltb_spec a b)
  end; lia.
Qed.

Lemma is_u32_spec (x : Z) : is_u32 x = true -> 0 <= x < 2 ^ 32.
Proof.
  unfold is_u32. rewrite andb_true_iff, Z.leb_le, Z.ltb_lt. lia.
Qed.

Lemma smallest_extent_u32 (d : Dimensions) :
  dimensions_u32 d = true -> 0 <= smallest_extent d < 2 ^ 32.
Proof.
  destruct d; simpl; rewrite ?andb_true_iff; intros H;
    repeat match goal with
    | H : _ /\ _ |- _ => destruct H
    | H : is_u32 _ = true |- _ => apply is_u32_spec in H
    end; lia.
Qed.

Lemma bind_done {A B} (m : M A) (k : A -> M B) tr tr' a :
  m tr = (tr', Done a) -> bind m k tr = k a tr'.
Proof. intros H. unfold bind. rewrite H. reflexivity. Qed.

Lemma bind_panic {A B} (m : M A) (k : A -> M B) tr tr' :
  m tr = (tr', Panic) -> bind m k tr = (tr', Panic).
Proof. intros H. unfold bind. rewrite H. reflexivity. Qed.

Lemma bind_fail {A B} (m : M A) (k : A -> M B) tr tr' e :
  m tr = (tr', Fail e) -> bind m k tr = (tr', Fail e).
Proof. intros H. unfold bind. rewrite H. reflexivity. Qed.

Lemma assert_true (b : bool) tr : b = true -> assert b tr = (tr, Done tt).
Proof. intros ->. reflexivity. Qed.

Lemma assert_false (b : bool) tr : b = false -> assert b tr = (tr, Panic).
Proof. intros ->. reflexivity. Qed.

Lemma compute_max_mipmaps_ok (d : Dimensions) tr :
  1 <= smallest_dim d ->
  compute_max_mipmaps d tr = (tr, Done (32 - leading_zeros (smallest_dim d))).
Proof.
  intros H. unfold compute_max_mipmaps.
  erewrite bind_done by (apply assert_true, Z.leb_le; exact H). reflexivity.
Qed.

Lemma usage_bits_none : Usage.to_usage_bits Usage.none = 0.
Proof. reflexivity. Qed.

(** ** Claims *)

(** C3: for a description whose smallest relevant extent [s] (width, the
    minimum of width and height, or of width, height and depth) is at least
    1, the computed maximum mip count is [32 - leading_zeros s], which is
    [floor(log2 s) + 1]; the extents 1 and 256 give 1 and 9 levels. *)
Theorem max_mipmaps_bit_width (d : Dimensions) (tr : list Event) :
  dimensions_u32 d = true ->
  1 <= smallest_extent d ->
  compute_max_mipmaps d tr = (tr, Done (32 - leading_zeros (smallest_extent d))) /\
  32 - leading_zeros (smallest_extent d) = Z.log2 (smallest_extent d) + 1 /\
  32 - leading_zeros 1 = 1 /\ 32 - leading_zeros 256 = 9.
Proof.
  intros Hu Hs. pose proof (smallest_extent_u32 d Hu) as Hr.
  unfold compute_max_mipmaps, bind, assert, ret.
  rewrite smallest_dim_spec.
  replace (1 <=? smallest_extent d) with true by (symmetry; apply Z.leb_le; lia).
  repeat split; try reflexivity. apply bit_width_log2. lia.
Qed.

Lemma max_mipmaps_bit_width_witness :
  (dimensions_u32 (Dim2d 64 32) = true /\ 1 <= smallest_extent (Dim2d 64 32)) /\
  compute_max_mipmaps (Dim2d 64 32) [] = ([], Done 6).
Proof.
  split; [split; [reflexivity | simpl; lia] |].
  destruct (max_mipmaps_bit_width (Dim2d 64 32) [] eq_refl) as [H _];
    [simpl; lia |].
  exact H.
Defined.

(** C4: with [max] the maximum computed for [d], [One] resolves to 1,
    [Max] to [max], and [Specific n] to [n] when [1 <= n <= max]; otherwise
    the resolution panics, and so does the whole call to
    [UnsafeImage::new] (before any device call) when its earlier
    assertions hold. *)
Theorem mipmaps_resolution (d : Dimensions) (tr : list Event) :
  let max := 32 - leading_zeros (smallest_dim d) in
  compute_mipmaps max One tr = (tr, Done 1) /\
  compute_mipmaps max Max tr = (tr, Done max) /\
  (forall n, 1 <= n <= max -> compute_mipmaps max (Specific n) tr = (tr, Done n)) /\
  (forall n, ~ (1 <= n <= max) -> compute_mipmaps max (Specific n) tr = (tr, Panic)) /\
  (forall dev u mem fmt ns n sh lt pl,
     1 <= ns -> 1 <= smallest_dim d -> ~ (1 <= n <= max) ->
     new dev u mem fmt d ns (Specific n) sh lt pl tr = (tr, Panic)).
Proof.
  intros max.
  assert (Hspec : forall n, compute_mipmaps max (Specific n) tr =
            if (1 <=? n) && (n <=? max) then (tr, Done n) else (tr, Panic)).
  { intros n. unfold compute_mipmaps, bind, assert, ret.
    destruct (1 <=? n), (n <=? max); reflexivity. }
  split; [reflexivity|]. split; [reflexivity|].
  split; [|split].
  - intros n Hn. rewrite Hspec.
    replace ((1 <=? n) && (n <=? max)) with true
      by (symmetry; apply andb_true_iff; rewrite !Z.leb_le; lia).
    reflexivity.
  - intros n Hn. rewrite Hspec.
    destruct ((1 <=? n) && (n <=? max)) eqn:E; [|reflexivity].
    apply andb_true_iff in E. rewrite !Z.leb_le in E. lia.
  - intros dev u mem fmt ns n sh lt pl Hns Hd Hn.
    unfold new.
    erewrite bind_done by (apply assert_true, Z.leb_le; exact Hns).
    erewrite bind_done by (apply compute_max_mipmaps_ok; exact Hd).
    apply bind_panic. rewrite Hspec.
    destruct ((1 <=? n) && (n <=? max)) eqn:E; [|reflexivity].
    apply andb_true_iff in E. rewrite !Z.leb_le in E. lia.
Qed.

Lemma mipmaps_resolution_witness :
  new (test_device true true) Usage.all regular_alloc 5 (Dim2d 64 32) 1 (Specific 7)
      (Exclusive 0) false false [] = ([], Panic).
Proof.
  destruct (mipmaps_resolution (Dim2d 64 32) []) as (_ & _ & _ & _ & H).
  apply H; [lia | vm_compute; discriminate |].
  intros [_ H']. revert H'. vm_compute. intros H'. apply H'. reflexivity.
Defined.

(** C5: decoding the encoding of any usage descriptor gives it back. *)
Theorem usage_bits_roundtrip (u : Usage) :
  Usage.from_bits (Usage.to_usage_bits u) = u.
Proof.
  destruct u as [a b c d e f g h].
  destruct a, b, c, d, e, f, g, h; reflexivity.
Qed.

(** C6: the descriptor with no intent encodes to 0, and the one with every
    intent encodes to the union of the eight usage bits: bits 0 to 7 are
    set and no other bit is. *)
Theorem usage_bits_none_all :
  Usage.to_usage_bits Usage.none = 0 /\
  Usage.to_usage_bits Usage.all =
    Z.lor (Z.lor (Z.lor (Z.lor (Z.lor (Z.lor (Z.lor
      IMAGE_USAGE_TRANSFER_SRC_BIT IMAGE_USAGE_TRANSFER_DST_BIT)
      IMAGE_USAGE_SAMPLED_BIT) IMAGE_USAGE_STORAGE_BIT)
      IMAGE_USAGE_COLOR_ATTACHMENT_BIT) IMAGE_USAGE_DEPTH_STENCIL_ATTACHMENT_BIT)
      IMAGE_USAGE_TRANSIENT_ATTACHMENT_BIT) IMAGE_USAGE_INPUT_ATTACHMENT_BIT /\
  (forall n, 0 <= n -> Z.testbit (Usage.to_usage_bits Usage.all) n = (n <? 8)).
Proof.
  split; [exact usage_bits_none|]. split; [reflexivity|].
  intros n Hn. change (Usage.to_usage_bits Usage.all) with (Z.ones 8).
  rewrite Z.testbit_ones by lia.
  replace (0 <=? n) with true by (symmetry; apply Z.leb_le; lia). reflexivity.
Qed.

(** C8: dropping an image issues [vkDestroyImage] on its own handle if and
    only if [needs_destruction] is set; the drop always completes normally,
    and when the flag is clear it issues no call at all. *)
Theorem drop_destroys_iff_owned (img : UnsafeImage) (tr : list Event) :
  outcome (drop img tr) = Done tt /\
  (needs_destruction img = true ->
     calls (drop img tr) = tr ++ [DestroyImage (device img) (image img)]) /\
  (needs_destruction img = false -> calls (drop img tr) = tr) /\
  ((exists dv i, In (DestroyImage dv i) (calls (drop img [])))
     <-> needs_destruction img = true).
Proof.
  unfold drop, emit, ret, calls, outcome.
  destruct (needs_destruction img); simpl.
  - repeat split; try reflexivity. intros H; discriminate.
    intros _. eexists _, _. left. reflexivity.
  - repeat split; try reflexivity; try discriminate.
    intros (dv & i & H). destruct H.
Qed.

(** [from_raw_unowned] is [unimplemented!()], so it panics for every input without issuing any call and returns no
    image; and dropping an image whose [needs_destruction] flag is false
    issues no call. *)
Theorem from_raw_unowned_panics {Mem : Type} (dev : Device) (handle : Z)
    (memory : Mem) (sharing : SharingMode) (usage format : Z)
    (dimensions : Dimensions) (samples mipmaps : Z) (tr : list Event) :
  from_raw_unowned dev handle memory sharing usage format dimensions
    samples mipmaps tr = (tr, Panic) /\
  (forall img tr', needs_destruction img = false -> drop img tr' = (tr', Done tt)).
Proof.
  split; [reflexivity|].
  intros img tr' H. unfold drop. rewrite H. reflexivity.
Qed.

(** C2: its documentation says [from_raw_unowned] creates an image from a
    raw handle that won't be destroyed, but at this input (as at every
    input) it returns no image at all, whatever its flag. *)
Lemma from_raw_unowned_no_object :
  ~ (exists img, outcome (from_raw_unowned (test_device true true) 42 tt
                    (Exclusive 0) 255 5 (Dim2d 4 4) 1 1 []) = Done img /\
                 needs_destruction img = false).
Proof.
  intros (img & H & _). discriminate H.
Qed.

Ltac run_new :=
  cbv beta iota zeta delta [new compute_max_mipmaps compute_mipmaps bind assert
    emit try_ ret unimplemented calls outcome];
  repeat (match goal with
          | |- context [match ?x with _ => _ end] =>
              lazymatch type of x with
              | (list Event * Exec _)%type => fail
              | _ => let E := fresh "E" in destruct x eqn:E
              end
          end; cbv beta iota zeta).

(** [UnsafeImage::new] never issues [vkDestroyImage], on any path. *)
Lemma new_never_destroys dev u mem fmt d ns mm sh lt pl dv i :
  ~ In (DestroyImage dv i) (calls (new dev u mem fmt d ns mm sh lt pl [])).
Proof.
  run_new; simpl; intuition discriminate.
Qed.

Lemma zero_extent_smallest_dim (d : Dimensions) :
  has_zero_extent d = true -> smallest_dim d <= 0.
Proof.
  rewrite smallest_dim_spec.
  destruct d; simpl; rewrite ?orb_true_iff, ?Z.eqb_eq; lia.
Qed.

(** C1: the input on which [vkBindImageMemory] fails after [vkCreateImage]
    returned the handle 42: [new] propagates the error and never issues
    [vkDestroyImage] for the handle, which is leaked. *)
Theorem new_bind_failure_leaks_handle :
  let r := new (test_device true false) Usage.all regular_alloc 5 (Dim2d 64 32)
             1 Max (Exclusive 0) false false [] in
  outcome r = Fail OutOfDeviceMemory /\
  (exists infos, calls r = [CreateImage 7 infos; GetImageMemoryRequirements 7 42;
                            AllocateMemory 4096 256 3; BindImageMemory 7 42 99 0]) /\
  (forall dv i, ~ In (DestroyImage dv i) (calls r)).
Proof.
  intros r. split; [reflexivity|]. split.
  - eexists. reflexivity.
  - intros dv i. apply new_never_destroys.
Qed.

(** C7: whenever [new] has handed requirements to the allocation closure
    and the closure answers with a chunk that is not [Regular], the call
    panics and no [vkBindImageMemory] is issued. *)
Theorem new_non_regular_chunk_panics dev u mem fmt d ns mm sh lt pl s a b :
  In (AllocateMemory s a b) (calls (new dev u mem fmt d ns mm sh lt pl [])) ->
  (forall m o z, mem s a b <> Regular m o z) ->
  outcome (new dev u mem fmt d ns mm sh lt pl []) = Panic /\
  (forall dv i m o,
     ~ In (BindImageMemory dv i m o) (calls (new dev u mem fmt d ns mm sh lt pl []))).
Proof.
  run_new; simpl; intros Hin Hreg;
    try (split; [reflexivity | intros; simpl; intuition discriminate]);
    exfalso; repeat destruct Hin as [Hin|Hin]; try discriminate;
    try contradiction; injection Hin as <- <- <-; eapply Hreg; eassumption.
Qed.

Lemma new_non_regular_chunk_panics_witness :
  In (AllocateMemory 4096 256 3)
     (calls (new (test_device true true) Usage.all sparse_alloc 5 (Dim2d 64 32)
               1 Max (Exclusive 0) false false [])) /\
  outcome (new (test_device true true) Usage.all sparse_alloc 5 (Dim2d 64 32)
             1 Max (Exclusive 0) false false []) = Panic.
Proof.
  assert (Hin : In (AllocateMemory 4096 256 3)
     (calls (new (test_device true true) Usage.all sparse_alloc 5 (Dim2d 64 32)
               1 Max (Exclusive 0) false false []))) by (simpl; tauto).
  split; [exact Hin|].
  apply (new_non_regular_chunk_panics (test_device true true) Usage.all sparse_alloc
           5 (Dim2d 64 32) 1 Max (Exclusive 0) false false 4096 256 3 Hin).
  intros m o z H. discriminate H.
Defined.

(** C9: a description with a zero extent, or a sample count of 0, makes
    [new] panic with no call issued. *)
Theorem new_zero_extent_or_samples_panics dev u mem fmt d ns mm sh lt pl tr :
  (has_zero_extent d = true -> new dev u mem fmt d ns mm sh lt pl tr = (tr, Panic)) /\
  (ns = 0 -> new dev u mem fmt d ns mm sh lt pl tr = (tr, Panic)).
Proof.
  split; intros H; unfold new.
  - destruct (1 <=? ns) eqn:Hns.
    + erewrite bind_done by (apply assert_true; reflexivity).
      apply bind_panic. unfold compute_max_mipmaps.
      apply bind_panic, assert_false, Z.leb_gt.
      pose proof (zero_extent_smallest_dim d H). lia.
    + apply bind_panic, assert_false. reflexivity.
  - subst ns. apply bind_panic, assert_false. reflexivity.
Qed.

Lemma new_zero_extent_or_samples_panics_witness :
  has_zero_extent (Dim3d 4 0 4) = true /\
  new (test_device true true) Usage.all regular_alloc 5 (Dim3d 4 0 4) 1 One
      (Exclusive 0) false false [] = ([], Panic).
Proof.
  split; [reflexivity|].
  apply (proj1 (new_zero_extent_or_samples_panics (test_device true true) Usage.all
           regular_alloc 5 (Dim3d 4 0 4) 1 One (Exclusive 0) false false [])).
  reflexivity.
Defined.

(** C10: for an array description with [array_layers = 0] and width and
    height at least 1, once the sample count and the mip request pass their
    checks, [new] issues [vkCreateImage] as its first call, with
    [arrayLayers = 0]. *)
Theorem new_zero_array_layers_forwarded dev u mem fmt d ns mm sh lt pl w h :
  (d = Dim1dArray w 0 \/ d = Dim2dArray w h 0) ->
  1 <= w -> 1 <= h -> 1 <= ns ->
  mipmaps_ok (32 - leading_zeros (smallest_dim d)) mm = true ->
  exists infos rest,
    calls (new dev u mem fmt d ns mm sh lt pl []) =
      CreateImage (device_handle dev) infos :: rest /\
    ici_arrayLayers infos = 0.
Proof.
  intros [-> | ->] Hw Hh Hns Hm;
    cbv beta iota zeta delta [new image_params]; run_new;
    simpl; try (eexists _, _; split; reflexivity).
  all: exfalso; cbn [smallest_dim mipmaps_ok] in *;
    repeat match goal with H : (_ <? _) = _ |- _ => rewrite H in Hm; clear H end;
    rewrite ?andb_true_iff, ?Z.leb_le in Hm;
    repeat match goal with H : (_ <=? _) = false |- _ => apply Z.leb_gt in H end;
    repeat match goal with H : context [?a <? ?b] |- _ => destruct (Z.ltb_spec a b) end;
    lia.
Qed.

Lemma new_zero_array_layers_forwarded_witness :
  exists infos rest,
    calls (new (test_device true true) Usage.all regular_alloc 5 (Dim2dArray 16 8 0)
             1 Max (Exclusive 0) false false []) =
      CreateImage 7 infos :: rest /\ ici_arrayLayers infos = 0.
Proof.
  apply (new_zero_array_layers_forwarded (test_device true true) Usage.all
           regular_alloc 5 (Dim2dArray 16 8 0) 1 Max (Exclusive 0) false false 16 8);
    [right; reflexivity | lia | lia | lia | reflexivity].
Defined.

(** ** Further properties of the module *)

Lemma from_bits_land_255 (v : Z) :
  Usage.from_bits v = Usage.from_bits (Z.land v 255).
Proof.
  unfold Usage.from_bits, Usage.bit_set.
  rewrite <- !Z.land_assoc. reflexivity.
Qed.

Lemma to_from_bits_small :
  forallb (fun k => Usage.to_usage_bits (Usage.from_bits k) =? k)
    (map Z.of_nat (seq 0 256)) = true.
Proof. vm_compute. reflexivity. Qed.

Lemma from_to_bits (u : Usage) : Usage.from_bits (Usage.to_usage_bits u) = u.
Proof.
  destruct u as [a b c d e f g h].
  destruct a, b, c, d, e, f, g, h; reflexivity.
Qed.

(** [from_bits] reads only the eight usage bits: any other bit of its
    argument is ignored. *)
Theorem from_bits_ignores_high_bits (v w : Z) :
  Z.land v 255 = Z.land w 255 -> Usage.from_bits v = Usage.from_bits w.
Proof.
  intros H. rewrite (from_bits_land_255 v), (from_bits_land_255 w), H.
  reflexivity.
Qed.

Lemma from_bits_ignores_high_bits_witness :
  Z.land 1025 255 = Z.land 1 255 /\ Usage.from_bits 1025 = Usage.from_bits 1.
Proof.
  split; [reflexivity|]. apply from_bits_ignores_high_bits. reflexivity.
Defined.

(** Re-encoding a decoded value keeps exactly its eight usage bits:
    [to_usage_bits (from_bits v) = v & 0xff]. *)
Theorem to_usage_bits_from_bits (v : Z) :
  Usage.to_usage_bits (Usage.from_bits v) = Z.land v 255.
Proof.
  rewrite from_bits_land_255.
  change 255 with (Z.ones 8). rewrite Z.land_ones by lia.
  assert (Hr : 0 <= v mod 2 ^ 8 < 256) by (apply Z.mod_pos_bound; lia).
  pose proof to_from_bits_small as Hall.
  rewrite forallb_forall in Hall.
  apply Z.eqb_eq, Hall, in_map_iff.
  exists (Z.to_nat (v mod 2 ^ 8)). split; [lia|].
  apply in_seq. lia.
Qed.

(** Every encoding is a value of the eight low bits. *)
Theorem to_usage_bits_range (u : Usage) : 0 <= Usage.to_usage_bits u < 256.
Proof.
  destruct u as [a b c d e f g h].
  destruct a, b, c, d, e, f, g, h; vm_compute; split; congruence.
Qed.

(** Two descriptors with the same encoding are equal. *)
Theorem to_usage_bits_injective (u1 u2 : Usage) :
  Usage.to_usage_bits u1 = Usage.to_usage_bits u2 -> u1 = u2.
Proof.
  intros H. rewrite <- (from_to_bits u1), <- (from_to_bits u2), H. reflexivity.
Qed.

Lemma to_usage_bits_injective_witness :
  Usage.to_usage_bits Usage.all = Usage.to_usage_bits Usage.all /\
  Usage.all = Usage.all.
Proof.
  split; [reflexivity|]. apply to_usage_bits_injective. reflexivity.
Defined.

(** [from_bits v] declares no intent exactly when none of the eight usage
    bits of [v] is set, and every intent exactly when all eight are. *)
Theorem from_bits_none_all_iff (v : Z) :
  (Usage.from_bits v = Usage.none <-> Z.land v 255 = 0) /\
  (Usage.from_bits v = Usage.all <-> Z.land v 255 = 255).
Proof.
  split; split; intros H.
  - rewrite <- to_usage_bits_from_bits, H. reflexivity.
  - rewrite from_bits_land_255, H. reflexivity.
  - rewrite <- to_usage_bits_from_bits, H. reflexivity.
  - rewrite from_bits_land_255, H. reflexivity.
Qed.

(** The order of the calls of [new]: [vkCreateImage], then
    [vkGetImageMemoryRequirements] on the same device, then the allocation
    closure, then [vkBindImageMemory] on the same device and image, each at
    most once; a log accepted here is a prefix of that sequence. *)
Definition call_order_ok (tr : list Event) : bool :=
  match tr with
  | [] => true
  | [CreateImage _ _] => true
  | [CreateImage dv _; GetImageMemoryRequirements dv' _] => dv =? dv'
  | [CreateImage dv _; GetImageMemoryRequirements dv' _; AllocateMemory _ _ _] =>
      dv =? dv'
  | [CreateImage dv _; GetImageMemoryRequirements dv' i; AllocateMemory _ _ _;
     BindImageMemory dv'' i' _ _] =>
      (dv =? dv') && (dv' =? dv'') && (i =? i')
  | _ => false
  end.

(** Whatever its outcome, [new] issues its calls in the order
    create, memory requirements, allocation, bind, each at most once, all
    on the same device and the bind on the queried image. *)
Theorem new_call_order dev u mem fmt d ns mm sh lt pl :
  call_order_ok (calls (new dev u mem fmt d ns mm sh lt pl [])) = true.
Proof.
  run_new; simpl; rewrite ?Z.eqb_refl; reflexivity.
Qed.

(** The only errors [new] returns are those of [vkCreateImage] (then it
    issued no other call) and of [vkBindImageMemory] (after the create,
    the requirements query and the allocation closure), unchanged. *)
Theorem new_error_sources dev u mem fmt d ns mm sh lt pl tr e :
  new dev u mem fmt d ns mm sh lt pl [] = (tr, Fail e) ->
  (exists infos, tr = [CreateImage (device_handle dev) infos] /\
                 create_image dev infos = inr e) \/
  (exists infos h r m o,
     tr = [CreateImage (device_handle dev) infos;
           GetImageMemoryRequirements (device_handle dev) h;
           AllocateMemory (mr_size r) (mr_alignment r) (mr_memoryTypeBits r);
           BindImageMemory (device_handle dev) h m o] /\
     create_image dev infos = inl h /\
     get_image_memory_requirements dev h = r /\
     bind_image_memory dev h m o = inr e).
Proof.
  run_new; simpl; intros H; inversion H; subst; clear H;
    first [ left; eexists; split; [reflexivity | eauto]
          | right; do 5 eexists; split; [reflexivity | eauto] ].
Qed.

Lemma new_error_sources_witness :
  new (test_device false true) Usage.all regular_alloc 5 (Dim2d 64 32) 1 Max
      (Exclusive 0) false false [] =
    (calls (new (test_device false true) Usage.all regular_alloc 5 (Dim2d 64 32) 1
              Max (Exclusive 0) false false []), Fail OutOfDeviceMemory) /\
  exists infos,
    calls (new (test_device false true) Usage.all regular_alloc 5 (Dim2d 64 32) 1
             Max (Exclusive 0) false false []) = [CreateImage 7 infos] /\
    create_image (test_device false true) infos = inr OutOfDeviceMemory.
Proof.
  assert (H : new (test_device false true) Usage.all regular_alloc 5 (Dim2d 64 32) 1
      Max (Exclusive 0) false false [] =
    (calls (new (test_device false true) Usage.all regular_alloc 5 (Dim2d 64 32) 1
              Max (Exclusive 0) false false []), Fail OutOfDeviceMemory))
    by reflexivity.
  split; [exact H|].
  destruct (new_error_sources _ _ _ _ _ _ _ _ _ _ _ _ H)
    as [E | (infos & h & r & m & o & Htr & _)]; [exact E|].
  vm_compute in Htr. discriminate Htr.
Defined.

(** What reaches [vkCreateImage]: the device, and a create info built from
    the checked parameters. *)
Lemma new_create_info_inv dev u mem fmt d ns mm sh lt pl dv infos :
  In (CreateImage dv infos) (calls (new dev u mem fmt d ns mm sh lt pl [])) ->
  dv = device_handle dev /\ 1 <= ns /\ 1 <= smallest_dim d /\
  compute_mipmaps (32 - leading_zeros (smallest_dim d)) mm [] =
    ([], Done (ici_mipLevels infos)) /\
  let '(ty, extent, array_layers, _) := image_params d in
  let '(sh_mode, sh_count, sh_indices) := sharing_params sh in
  infos = {|
    ici_flags := 0;
    ici_imageType := ty;
    ici_format := fmt;
    ici_extent := extent;
    ici_mipLevels := ici_mipLevels infos;
    ici_arrayLayers := array_layers;
    ici_samples := ns;
    ici_tiling := if lt then IMAGE_TILING_LINEAR else IMAGE_TILING_OPTIMAL;
    ici_usage := Usage.to_usage_bits u;
    ici_sharingMode := sh_mode;
    ici_queueFamilyIndexCount := sh_count;
    ici_pQueueFamilyIndices := sh_indices;
    ici_initialLayout := if pl then IMAGE_LAYOUT_PREINITIALIZED
                         else IMAGE_LAYOUT_UNDEFINED;
  |}.
Proof.
  run_new; simpl; intros H; repeat destruct H as [H|H]; try discriminate;
    try contradiction; injection H as <- <-;
    repeat split; try reflexivity; apply Z.leb_le; assumption.
Qed.

Lemma compute_mipmaps_range (max : Z) (mm : MipmapsCount) tr tr' k :
  1 <= max -> compute_mipmaps max mm tr = (tr', Done k) -> 1 <= k <= max.
Proof.
  intros Hmax. unfold compute_mipmaps, bind, assert, ret.
  destruct mm as [n| |]; [|intros H; injection H as _ <-; lia
                           |intros H; injection H as _ <-; lia].
  destruct (1 <=? n) eqn:E1; [|discriminate].
  destruct (n <=? max) eqn:E2; [|discriminate].
  intros H; injection H as _ <-. apply Z.leb_le in E1, E2. lia.
Qed.

(** The geometry [new] sends to [vkCreateImage]: the image type follows
    the variant (array-ness does not change it), unused trailing axes of
    the extent are 1, and the layer count is 1 for non-array variants and
    the given [array_layers] otherwise. *)
Theorem new_create_geometry dev u mem fmt d ns mm sh lt pl dv infos :
  In (CreateImage dv infos) (calls (new dev u mem fmt d ns mm sh lt pl [])) ->
  match d with
  | Dim1d w => ici_imageType infos = IMAGE_TYPE_1D /\
      ici_extent infos = mkExtent3D w 1 1 /\ ici_arrayLayers infos = 1
  | Dim1dArray w l => ici_imageType infos = IMAGE_TYPE_1D /\
      ici_extent infos = mkExtent3D w 1 1 /\ ici_arrayLayers infos = l
  | Dim2d w h => ici_imageType infos = IMAGE_TYPE_2D /\
      ici_extent infos = mkExtent3D w h 1 /\ ici_arrayLayers infos = 1
  | Dim2dArray w h l => ici_imageType infos = IMAGE_TYPE_2D /\
      ici_extent infos = mkExtent3D w h 1 /\ ici_arrayLayers infos = l
  | Dim3d w h dp => ici_imageType infos = IMAGE_TYPE_3D /\
      ici_extent infos = mkExtent3D w h dp /\ ici_arrayLayers infos = 1
  end.
Proof.
  intros H. apply new_create_info_inv in H as (_ & _ & _ & _ & Hi).
  destruct (sharing_params sh) as [[m c] ix].
  destruct d; simpl in Hi; rewrite Hi; simpl; repeat split.
Qed.

Lemma new_create_geometry_witness :
  exists infos,
    In (CreateImage 7 infos)
       (calls (new (test_device true true) Usage.all regular_alloc 5
                 (Dim1dArray 16 3) 1 One (Exclusive 0) false false [])) /\
    ici_arrayLayers infos = 3.
Proof.
  eexists. split; [simpl; left; reflexivity|].
  match goal with |- ici_arrayLayers ?i = 3 =>
    apply (new_create_geometry (test_device true true) Usage.all regular_alloc 5
             (Dim1dArray 16 3) 1 One (Exclusive 0) false false 7 i);
    simpl; left; reflexivity
  end.
Defined.

(** The sharing fields of the create info: exclusive sharing sends mode
    [EXCLUSIVE], count 0 and no index list; concurrent sharing sends mode
    [CONCURRENT] and the given list, with its length as count ([as u32]:
    the length when it fits in 32 bits). *)
Theorem new_create_sharing dev u mem fmt d ns mm sh lt pl dv infos :
  In (CreateImage dv infos) (calls (new dev u mem fmt d ns mm sh lt pl [])) ->
  match sh with
  | Exclusive _ => ici_sharingMode infos = SHARING_MODE_EXCLUSIVE /\
      ici_queueFamilyIndexCount infos = 0 /\ ici_pQueueFamilyIndices infos = []
  | Concurrent ids => ici_sharingMode infos = SHARING_MODE_CONCURRENT /\
      ici_pQueueFamilyIndices infos = ids /\
      (Z.of_nat (length ids) < 2 ^ 32 ->
         ici_queueFamilyIndexCount infos = Z.of_nat (length ids))
  end.
Proof.
  intros H. apply new_create_info_inv in H as (_ & _ & _ & _ & Hi).
  destruct (image_params d) as [[[ty ext] al] dims].
  destruct sh as [id|ids]; simpl in Hi; rewrite Hi; simpl; repeat split.
  intros Hl. apply Z.mod_small. lia.
Qed.

Lemma new_create_sharing_witness :
  exists infos,
    In (CreateImage 7 infos)
       (calls (new (test_device true true) Usage.all regular_alloc 5
                 (Dim2d 16 16) 1 One (Concurrent [0; 2]) false false [])) /\
    ici_pQueueFamilyIndices infos = [0; 2].
Proof.
  eexists. split; [simpl; left; reflexivity|].
  match goal with |- ici_pQueueFamilyIndices ?i = _ =>
    apply (new_create_sharing (test_device true true) Usage.all regular_alloc 5
             (Dim2d 16 16) 1 One (Concurrent [0; 2]) false false 7 i);
    simpl; left; reflexivity
  end.
Defined.

(** For a description of [u32] extents, the create info carries at least
    one sample and a mip level count between 1 and
    [floor(log2 s) + 1] (so at most 32), [s] the smallest relevant extent. *)
Theorem new_create_mip_levels_range dev u mem fmt d ns mm sh lt pl dv infos :
  dimensions_u32 d = true ->
  In (CreateImage dv infos) (calls (new dev u mem fmt d ns mm sh lt pl [])) ->
  1 <= ici_samples infos /\
  1 <= ici_mipLevels infos <= Z.log2 (smallest_extent d) + 1 /\
  ici_mipLevels infos <= 32.
Proof.
  intros Hu H. apply new_create_info_inv in H as (_ & Hns & Hd & Hm & Hi).
  pose proof (smallest_extent_u32 d Hu) as Hr.
  rewrite smallest_dim_spec in Hd, Hm.
  rewrite bit_width_log2 in Hm by lia.
  assert (Z.log2 (smallest_extent d) < 32) by (apply Z.log2_lt_pow2; lia).
  apply compute_mipmaps_range in Hm; [|pose proof (Z.log2_nonneg (smallest_extent d)); lia].
  split; [|lia].
  destruct (image_params d) as [[[ty ext] al] dims].
  destruct (sharing_params sh) as [[m c] ix].
  rewrite Hi. simpl. exact Hns.
Qed.

Lemma new_create_mip_levels_range_witness :
  exists infos,
    In (CreateImage 7 infos)
       (calls (new (test_device true true) Usage.all regular_alloc 5
                 (Dim3d 256 512 300) 1 Max (Exclusive 0) false false [])) /\
    ici_mipLevels infos <= 32.
Proof.
  eexists. split; [simpl; left; reflexivity|].
  match goal with |- ici_mipLevels ?i <= 32 =>
    apply (new_create_mip_levels_range (test_device true true) Usage.all
             regular_alloc 5 (Dim3d 256 512 300) 1 Max (Exclusive 0) false false 7 i);
    [reflexivity | simpl; left; reflexivity]
  end.
Defined.

(** On success, [new] has issued exactly the four calls create,
    requirements, allocation, bind: the requirements are queried for the
    handle [vkCreateImage] returned, the closure receives exactly those
    requirements and answers with a [Regular] chunk, whose memory and offset
    are bound to that handle; the returned image holds this handle, the
    device, and owns it ([needs_destruction = true]). *)
Theorem new_success_protocol dev u mem fmt d ns mm sh lt pl tr img :
  new dev u mem fmt d ns mm sh lt pl [] = (tr, Done img) ->
  exists infos m o sz,
    let r := get_image_memory_requirements dev (image img) in
    create_image dev infos = inl (image img) /\
    mem (mr_size r) (mr_alignment r) (mr_memoryTypeBits r) = Regular m o sz /\
    bind_image_memory dev (image img) m o = inl tt /\
    tr = [CreateImage (device_handle dev) infos;
          GetImageMemoryRequirements (device_handle dev) (image img);
          AllocateMemory (mr_size r) (mr_alignment r) (mr_memoryTypeBits r);
          BindImageMemory (device_handle dev) (image img) m o] /\
    device img = device_handle dev /\ needs_destruction img = true.
Proof.
  run_new; simpl; intros H; inversion H; subst; clear H;
    repeat match goal with x : unit |- _ => destruct x end;
    do 4 eexists; simpl; repeat split; first [eassumption | reflexivity].
Qed.

Lemma new_success_protocol_witness :
  exists tr img,
    new (test_device true true) Usage.all regular_alloc 5 (Dim2d 64 32) 1 Max
        (Exclusive 0) false false [] = (tr, Done img) /\
    needs_destruction img = true.
Proof.
  do 2 eexists. split; [cbv; reflexivity|].
  match goal with |- needs_destruction ?i = true =>
    destruct (new_success_protocol (test_device true true) Usage.all regular_alloc 5
      (Dim2d 64 32) 1 Max (Exclusive 0) false false _ i eq_refl)
      as (infos & m & o & sz & _ & _ & _ & _ & _ & Hn);
    exact Hn
  end.
Defined.

(** On success, the returned image records the descriptor's encoding (it
    decodes back to the descriptor), the format, the sample count (at
    least 1), the mip count the create info carried, and the extents of
    the description (1 on unused axes), each converted to [f32]. *)
Theorem new_success_fields dev u mem fmt d ns mm sh lt pl tr img :
  new dev u mem fmt d ns mm sh lt pl [] = (tr, Done img) ->
  Usage.from_bits (usage img) = u /\ format img = fmt /\
  samples img = ns /\ 1 <= ns /\
  (exists infos, In (CreateImage (device_handle dev) infos) tr /\
                 ici_mipLevels infos = mipmaps img) /\
  dimensions img =
    match d with
    | Dim1d w | Dim1dArray w _ => (u32_to_f32 w, 1, 1)
    | Dim2d w h | Dim2dArray w h _ => (u32_to_f32 w, u32_to_f32 h, 1)
    | Dim3d w h dp => (u32_to_f32 w, u32_to_f32 h, u32_to_f32 dp)
    end.
Proof.
  run_new; simpl; intros H; inversion H; subst; clear H;
    (split; [apply from_to_bits|]);
    repeat split; try reflexivity;
    try (apply Z.leb_le; assumption);
    try (eexists; split; [left; reflexivity | reflexivity]);
    match goal with E : image_params ?d0 = _ |- _ =>
      first [ simpl in E; inversion E; reflexivity
            | destruct d0; simpl in E; inversion E; reflexivity ] end.
Qed.

Lemma new_success_fields_witness :
  exists tr img,
    new (test_device true true) Usage.all regular_alloc 5 (Dim2d 64 32) 1 Max
        (Exclusive 0) false false [] = (tr, Done img) /\
    Usage.from_bits (usage img) = Usage.all.
Proof.
  do 2 eexists. split; [cbv; reflexivity|].
  match goal with |- Usage.from_bits (usage ?i) = _ =>
    apply (new_success_fields (test_device true true) Usage.all regular_alloc 5
      (Dim2d 64 32) 1 Max (Exclusive 0) false false _ i eq_refl)
  end.
Defined.

Definition is_destroy (e : Event) : bool :=
  match e with DestroyImage _ _ => true | _ => false end.

(** An image built by [new] and then dropped: over the whole log,
    [vkDestroyImage] is issued exactly once, last, for the handle that
    [vkCreateImage] returned, on the same device. *)
Theorem new_then_drop_destroys_once dev u mem fmt d ns mm sh lt pl tr img :
  new dev u mem fmt d ns mm sh lt pl [] = (tr, Done img) ->
  exists infos,
    create_image dev infos = inl (image img) /\
    In (CreateImage (device_handle dev) infos) tr /\
    calls (drop img tr) = tr ++ [DestroyImage (device_handle dev) (image img)] /\
    filter is_destroy (calls (drop img tr)) =
      [DestroyImage (device_handle dev) (image img)].
Proof.
  run_new; simpl; intros H; inversion H; subst; clear H;
    eexists; (split; [eassumption|]); (split; [left; reflexivity|]);
    split; reflexivity.
Qed.

Lemma new_then_drop_destroys_once_witness :
  exists tr img,
    new (test_device true true) Usage.all regular_alloc 5 (Dim2d 64 32) 1 Max
        (Exclusive 0) false false [] = (tr, Done img) /\
    filter is_destroy (calls (drop img tr)) = [DestroyImage 7 (image img)].
Proof.
  do 2 eexists. split; [cbv; reflexivity|].
  match goal with |- filter is_destroy (calls (drop ?i ?t)) = _ =>
    destruct (new_then_drop_destroys_once (test_device true true) Usage.all
      regular_alloc 5 (Dim2d 64 32) 1 Max (Exclusive 0) false false t i eq_refl)
      as (infos & _ & _ & _ & Hf);
    exact Hf
  end.
Defined.

(** [new] returns an image whenever its assertions hold (at least one
    sample, smallest extent at least 1, an admissible mip request), the
    device creates and binds, and the closure answers with a [Regular]
    chunk. *)
Theorem new_succeeds dev u mem fmt d ns mm sh lt pl :
  1 <= ns -> 1 <= smallest_dim d ->
  mipmaps_ok (32 - leading_zeros (smallest_dim d)) mm = true ->
  (forall infos, exists h, create_image dev infos = inl h) ->
  (forall h, exists m o sz,
     let r := get_image_memory_requirements dev h in
     mem (mr_size r) (mr_alignment r) (mr_memoryTypeBits r) = Regular m o sz /\
     bind_image_memory dev h m o = inl tt) ->
  exists tr img, new dev u mem fmt d ns mm sh lt pl [] = (tr, Done img).
Proof.
  intros Hns Hd Hm Hc Hb. run_new; try (do 2 eexists; reflexivity); exfalso.
  all: try (apply Z.leb_gt in E; lia).
  all: try (apply Z.leb_gt in E0; lia).
  all: try (match goal with E : create_image _ ?i = inr _ |- _ =>
              destruct (Hc i) as [h Hh]; congruence end).
  all: try (match goal with E : bind_image_memory _ ?h _ _ = inr _ |- _ =>
              destruct (Hb h) as (m0 & o0 & sz0 & HH); cbv zeta in HH;
              destruct HH as [Hmem Hbind]; rewrite Hmem in *;
              match goal with E' : Regular _ _ _ = Regular _ _ _ |- _ =>
                inversion E'; subst end;
              congruence end).
  all: try (match goal with E : _ = Sparse, Hh : create_image _ _ = inl ?h |- _ =>
              destruct (Hb h) as (m0 & o0 & sz0 & HH); cbv zeta in HH;
              destruct HH as [Hmem Hbind]; congruence end).
  all: cbn [mipmaps_ok] in Hm; rewrite ?andb_true_iff, ?Z.leb_le in Hm;
    repeat match goal with H : (_ <=? _) = false |- _ => apply Z.leb_gt in H end;
    lia.
Qed.

Lemma new_succeeds_witness :
  exists tr img,
    new (test_device true true) Usage.all regular_alloc 5 (Dim3d 8 8 8) 4
        (Specific 3) (Exclusive 0) true true [] = (tr, Done img).
Proof.
  apply new_succeeds; [lia | vm_compute; discriminate | reflexivity | |].
  - intros infos. exists 42. reflexivity.
  - intros h. exists 99, 0, 4096. split; reflexivity.
Defined.

Lemma u32_to_f32_exact (x : Z) : x <= 2 ^ 24 -> u32_to_f32 x = x.
Proof.
  intros H. unfold u32_to_f32.
  destruct (Z.ltb_spec x (2 ^ 24)) as [_|Hge]; [reflexivity|].
  assert (x = 2 ^ 24) as -> by lia. reflexivity.
Qed.

(** Extents up to [2^24] are stored exactly in the [f32] dimension vector
    of an image returned by [new] (1 on unused axes); above, [as f32]
    rounds, e.g. [16777217] is stored as [16777216]. *)
Theorem new_success_dimensions_exact dev u mem fmt d ns mm sh lt pl tr img :
  new dev u mem fmt d ns mm sh lt pl [] = (tr, Done img) ->
  (match d with
   | Dim1d w | Dim1dArray w _ => w <= 2 ^ 24
   | Dim2d w h | Dim2dArray w h _ => w <= 2 ^ 24 /\ h <= 2 ^ 24
   | Dim3d w h dp => w <= 2 ^ 24 /\ h <= 2 ^ 24 /\ dp <= 2 ^ 24
   end) ->
  dimensions img =
    match d with
    | Dim1d w | Dim1dArray w _ => (w, 1, 1)
    | Dim2d w h | Dim2dArray w h _ => (w, h, 1)
    | Dim3d w h dp => (w, h, dp)
    end /\
  u32_to_f32 16777217 = 16777216.
Proof.
  intros H Hb. split; [|reflexivity].
  assert (Hd : dimensions img = snd (image_params d)).
  { revert H. run_new; simpl; intros H; inversion H; subst; clear H;
      first [ reflexivity
            | match goal with E : image_params d = _ |- _ =>
                rewrite E; reflexivity end ]. }
  rewrite Hd.
  destruct d; simpl in Hb |- *;
    repeat match goal with Hc : _ /\ _ |- _ => destruct Hc end;
    rewrite ?u32_to_f32_exact by assumption; reflexivity.
Qed.

Lemma new_success_dimensions_exact_witness :
  exists tr img,
    new (test_device true true) Usage.all regular_alloc 5 (Dim2d 64 32) 1 Max
        (Exclusive 0) false false [] = (tr, Done img) /\
    dimensions img = (64, 32, 1).
Proof.
  do 2 eexists. split; [cbv; reflexivity|].
  match goal with |- dimensions ?i = _ =>
    apply (new_success_dimensions_exact (test_device true true) Usage.all
      regular_alloc 5 (Dim2d 64 32) 1 Max (Exclusive 0) false false _ i eq_refl);
    simpl; lia
  end.
Defined.
